(** * Arogya Setu: the page logic of the demonstration frontend

    A shallow embedding of the state-carrying parts of the single-page
    application: the drug interaction checker ([DrugCheckerPage]), the
    vault's compare selection ([VaultPage]), the client-side router
    ([getPage]) and the static tables of the multi-prescription page;
    then the suggestion list of the checker, the search and banner of the
    vault page, the application shell with its links, the scan page with
    its timer, the schedule page and the counters of the home page.

    React state hooks are modelled by explicit state passing: a component's
    [useState] cells form a record, every event handler is a function from
    the record before the event to the record after it, and the markup a
    component returns is a function from the record to a view.  JavaScript
    arrays are lists, [Array.prototype.includes] on strings or small
    integers is decidable membership, [filter] is [filter]. *)

From Stdlib Require Import Ascii.
From stdpp Require Import base decidable option strings numbers.
From stdpp Require Import list.

Local Open Scope string_scope.
Local Open Scope list_scope.
Local Open Scope nat_scope.

(** Settles a closed decidable proposition by evaluating its decision
    procedure. *)
Ltac by_compute := apply (bool_decide_unpack _); by vm_compute.

(** [xs.includes(x)] *)
Definition includes {A} `{EqDecision A} (xs : list A) (x : A) : bool :=
  bool_decide (x ∈ xs).

(** * The drug interaction checker (src/src/main.jsx, [DrugCheckerPage]) *)
Module DrugChecker.

Record interaction := Interaction {
  drug1 : string;
  drug2 : string;
  severity : string;
  title : string;
  description : string;
  action : string
}.

Definition DEMO_INTERACTIONS : list interaction := [
  {| drug1 := "Metformin";
     drug2 := "Amlodipine";
     severity := "minor";
     title := "Minor Interaction";
     description := "Amlodipine may slightly increase blood sugar levels, potentially affecting Metformin's effectiveness in controlling diabetes. Monitor blood sugar regularly.";
     action := "Inform your doctor at next visit. No immediate action required." |};
  {| drug1 := "Atorvastatin";
     drug2 := "Amlodipine";
     severity := "moderate";
     title := "Moderate Interaction";
     description := "Amlodipine can increase Atorvastatin blood levels by about 18%, potentially increasing the risk of muscle pain or weakness (myopathy). This combination is used but requires monitoring.";
     action := "Watch for unexplained muscle pain, tenderness, or weakness. Report to your doctor if symptoms appear." |};
  {| drug1 := "Pantoprazole";
     drug2 := "Metformin";
     severity := "minor";
     title := "Minor Interaction";
     description := "Pantoprazole may slightly increase Metformin plasma levels. In patients with normal kidney function, this is generally not clinically significant.";
     action := "No action needed for most patients. Kidney function monitoring advised for elderly patients." |}
].

Definition DRUG_DATABASE : list string := [
  "Metformin"; "Amlodipine"; "Pantoprazole"; "Atorvastatin"; "Aspirin";
  "Losartan"; "Ramipril"; "Glimepiride"; "Clopidogrel"; "Warfarin";
  "Ciprofloxacin"; "Azithromycin"; "Diazepam"; "Omeprazole"; "Paracetamol"
].

(** The keys of [severityConfig]: the tiers an [InteractionCard] can style. *)
Definition severityConfig_keys : list string :=
  ["critical"; "moderate"; "minor"].

(** The four [useState] cells of the component. *)
Record state := State {
  drugs : list string;
  input : string;
  showSuggestions : bool;
  checked : bool
}.

Definition init : state :=
  {| drugs := ["Metformin"; "Amlodipine"; "Pantoprazole"; "Atorvastatin"];
     input := "";
     showSuggestions := false;
     checked := false |}.

(** [if (!drugs.includes(name)) setDrugs([...drugs, name]);
     setInput(""); setShowSuggestions(false); setChecked(false);] *)
Definition addDrug (name : string) (s : state) : state :=
  {| drugs := if includes (drugs s) name then drugs s else drugs s ++ [name];
     input := "";
     showSuggestions := false;
     checked := false |}.

(** [setDrugs(drugs.filter((d) => d !== name)); setChecked(false);] *)
Definition removeDrug (name : string) (s : state) : state :=
  {| drugs := filter (λ d, d ≠ name) (drugs s);
     input := input s;
     showSuggestions := showSuggestions s;
     checked := false |}.

(** The user events the JSX wires to handlers.  A suggestion row exists
    only for a name of [DRUG_DATABASE] that is not in the list, and a chip
    only for a name that is; the events are not restricted accordingly,
    which only adds sessions. *)
Inductive event :=
| Change (v : string)          (* typing in the text field *)
| KeyDown (key : string)       (* a key pressed in the text field *)
| ClickSuggestion (d : string) (* a row of the suggestion list *)
| ClickRemove (d : string)     (* the cross of a drug chip *)
| ClickCheck.                  (* the Check button *)

(** [onChange]: [setInput(e.target.value); setShowSuggestions(true);] *)
Definition onChange (v : string) (s : state) : state :=
  {| drugs := drugs s; input := v; showSuggestions := true; checked := checked s |}.

(** [onKeyDown]: [e.key === "Enter" && input && addDrug(input)];
    the empty string is the only falsy string. *)
Definition onKeyDown (key : string) (s : state) : state :=
  if bool_decide (key = "Enter") && negb (bool_decide (input s = ""))
  then addDrug (input s) s
  else s.

(** The Check button: [disabled={drugs.length < 2}],
    [onClick={() => setChecked(true)}]; a disabled button fires no click. *)
Definition onCheck (s : state) : state :=
  if bool_decide (length (drugs s) < 2) then s
  else {| drugs := drugs s; input := input s;
          showSuggestions := showSuggestions s; checked := true |}.

Definition handle (e : event) (s : state) : state :=
  match e with
  | Change v => onChange v s
  | KeyDown key => onKeyDown key s
  | ClickSuggestion d => addDrug d s
  | ClickRemove d => removeDrug d s
  | ClickCheck => onCheck s
  end.

(** A session: the events of a trace applied in order, oldest first. *)
Definition run (evs : list event) (s : state) : state :=
  foldl (λ st e, handle e st) s evs.

Definition reachable (s : state) : Prop := ∃ evs, s = run evs init.

(** The block rendered under [{checked && ( ... )}]: the three summary
    cards with their literal counts, one [InteractionCard] per element of
    [DEMO_INTERACTIONS], and the safe banner. *)
Record results_block := Results {
  sum_critical : nat;
  sum_moderate : nat;
  sum_minor : nat;
  cards : list interaction;
  safe_banner : bool
}.

(** What the page shows, as far as the drug list and the results go. *)
Record view := View {
  chips : list string;
  check_disabled : bool;
  check_count : nat;
  results : option results_block
}.

Definition render (s : state) : view :=
  {| chips := drugs s;
     check_disabled := bool_decide (length (drugs s) < 2);
     check_count := length (drugs s);
     results :=
       if checked s
       then Some {| sum_critical := 0;
                    sum_moderate := 1;
                    sum_minor := 2;
                    cards := DEMO_INTERACTIONS;
                    safe_banner := true |}
       else None |}.

(** Readings of a view used by the statements below. *)

(** The interaction records on screen: none when no result block is. *)
Definition shown_records (v : view) : list interaction :=
  from_option cards [] (results v).

(** The safe flag: unset ([None]) when no result block is rendered. *)
Definition safe_flag (v : view) : option bool :=
  safe_banner <$> results v.

(** Number of records of a tier among the cards of a result block. *)
Definition tier_count (tier : string) (r : results_block) : nat :=
  length (filter (λ i, severity i = tier) (cards r)).

(** Records whose severity is none of the tiers of [severityConfig]. *)
Definition unknown_count (r : results_block) : nat :=
  length (filter (λ i, severity i ∉ severityConfig_keys) (cards r)).

End DrugChecker.

(** * The vault's compare selection (src/unnamed/part_002, [VaultPage]) *)
Module Vault.

(** The cell [compareIds] holds the numeric [id] fields of the chosen
    vault items; it starts empty. *)
Definition init : list Z := [].

(** [if (compareIds.includes(id)) setCompareIds(compareIds.filter((c) => c !== id));
     else if (compareIds.length < 2) setCompareIds([...compareIds, id]);] *)
Definition toggleCompare (id : Z) (compareIds : list Z) : list Z :=
  if includes compareIds id then filter (λ c, c ≠ id) compareIds
  else if bool_decide (length compareIds < 2) then compareIds ++ [id]
  else compareIds.

(** The two places that write [compareIds]: the compare button of a card,
    and the "Compare Now" / "Cancel" buttons, both [setCompareIds([])]. *)
Inductive event :=
| Toggle (id : Z)
| Clear.

Definition handle (e : event) (ids : list Z) : list Z :=
  match e with
  | Toggle id => toggleCompare id ids
  | Clear => []
  end.

Inductive reachable : list Z → Prop :=
| reach_init : reachable init
| reach_step e ids : reachable ids → reachable (handle e ids).

(** The invariant of the cell: at most two ids, none of them twice. *)
Definition selection_ok (ids : list Z) : Prop := length ids ≤ 2 ∧ NoDup ids.

End Vault.

(** * The client-side router (src/unnamed/part_001, [getPage]) *)
Module Router.

Definition getPage (path : string) : string :=
  if bool_decide (path = "/scan") then "scan"
  else if bool_decide (path = "/drug-checker") then "drug-checker"
  else if bool_decide (path = "/schedule") then "schedule"
  else if bool_decide (path = "/vault") then "vault"
  else if bool_decide (path = "/multi-prescription") then "multi-prescription"
  else "home".

(** The paths with a page of their own, and the six page identifiers. *)
Definition routed_paths : list string :=
  ["/scan"; "/drug-checker"; "/schedule"; "/vault"; "/multi-prescription"].

Definition pages : list string :=
  ["scan"; "drug-checker"; "schedule"; "vault"; "multi-prescription"; "home"].

End Router.

(** * The multi-prescription page (src/src/main.jsx, [MultiPrescriptionPage]) *)
Module MultiRx.

Record medicine := Medicine {
  name : string;
  dose : string;
  freq : string;
  slot : string
}.

Record prescription := Prescription {
  id : Z;
  doctor : string;
  specialty : string;
  date : string;
  color : string;
  medicines : list medicine
}.

Definition PRESCRIPTIONS : list prescription := [
  {| id := 1;
     doctor := "Dr. Ramesh Reddy";
     specialty := "Cardiologist";
     date := "Feb 25, 2026";
     color := "#00c8ff";
     medicines := [
       {| name := "Amlodipine"; dose := "5mg"; freq := "OD"; slot := "Night" |};
       {| name := "Atorvastatin"; dose := "10mg"; freq := "OD"; slot := "Night" |};
       {| name := "Clopidogrel"; dose := "75mg"; freq := "OD"; slot := "Morning" |}
     ] |};
  {| id := 2;
     doctor := "Dr. Sunita Sharma";
     specialty := "Endocrinologist";
     date := "Feb 20, 2026";
     color := "#00ffb4";
     medicines := [
       {| name := "Metformin"; dose := "500mg"; freq := "BD"; slot := "Morning + Night" |};
       {| name := "Glimepiride"; dose := "1mg"; freq := "OD"; slot := "Morning" |};
       {| name := "Pantoprazole"; dose := "40mg"; freq := "OD"; slot := "Morning" |}
     ] |}
].

Record cross_interaction := CrossInteraction {
  drug1 : string;
  rx1 : string;
  drug2 : string;
  rx2 : string;
  severity : string;
  desc : string;
  action : string
}.

Definition CROSS_INTERACTIONS : list cross_interaction := [
  {| drug1 := "Clopidogrel";
     rx1 := "Cardiologist";
     drug2 := "Pantoprazole";
     rx2 := "Endocrinologist";
     severity := "moderate";
     desc := "Pantoprazole reduces the antiplatelet effect of Clopidogrel by inhibiting CYP2C19. This combination may increase cardiac risk.";
     action := "Inform your cardiologist about the Pantoprazole prescription. An alternative PPI like Rabeprazole may be used." |}
].

(** An entry of the unified schedule; [flag] is [null] or a warning sign. *)
Record schedule_entry := ScheduleEntry {
  e_name : string;
  e_dose : string;
  e_color : string;
  e_source : string;
  e_flag : option string
}.

(** The object literal [MERGED_SCHEDULE], as [Object.entries] lists it:
    keys in insertion order. *)
Definition MERGED_SCHEDULE : list (string * list schedule_entry) := [
  ("Morning", [
    {| e_name := "Clopidogrel"; e_dose := "75mg"; e_color := "#00c8ff"; e_source := "Dr. Ramesh Reddy"; e_flag := None |};
    {| e_name := "Metformin"; e_dose := "500mg"; e_color := "#00ffb4"; e_source := "Dr. Sunita Sharma"; e_flag := None |};
    {| e_name := "Glimepiride"; e_dose := "1mg"; e_color := "#00ffb4"; e_source := "Dr. Sunita Sharma"; e_flag := None |};
    {| e_name := "Pantoprazole"; e_dose := "40mg"; e_color := "#00ffb4"; e_source := "Dr. Sunita Sharma"; e_flag := Some "⚠️" |}
  ]);
  ("Night", [
    {| e_name := "Amlodipine"; e_dose := "5mg"; e_color := "#00c8ff"; e_source := "Dr. Ramesh Reddy"; e_flag := None |};
    {| e_name := "Atorvastatin"; e_dose := "10mg"; e_color := "#00c8ff"; e_source := "Dr. Ramesh Reddy"; e_flag := None |};
    {| e_name := "Metformin"; e_dose := "500mg"; e_color := "#00ffb4"; e_source := "Dr. Sunita Sharma"; e_flag := None |}
  ])
].

(** [MERGED_SCHEDULE[slot]], the empty bucket for a key the object lacks. *)
Definition bucket (slot : string) : list schedule_entry :=
  match list_find (λ kv, kv.1 = slot) MERGED_SCHEDULE with
  | Some (_, (_, meds)) => meds
  | None => []
  end.

(** [{med.flag && <span>{med.flag}</span>}]: the marker is drawn when the
    flag is truthy, that is neither [null] nor the empty string. *)
Definition conflict (e : schedule_entry) : bool :=
  match e_flag e with
  | Some f => negb (bool_decide (f = ""))
  | None => false
  end.





End MultiRx.

(** * Notions of the specification

    The specification speaks of normalised drug names, of the enumeration
    of unordered pairs, of the provenance of a drug and of a schedule merged
    from prescriptions.  The source computes none of them: it holds tables.
    The definitions of this module follow the specification's words and are
    only ever compared with the tables and functions above. *)
Module Spec.

(** Case folding of a letter of the basic Latin alphabet. *)
Definition lower (c : ascii) : ascii :=
  let n := nat_of_ascii c in
  if bool_decide (65 ≤ n ≤ 90) then ascii_of_nat (n + 32) else c.

Fixpoint lowercase (s : string) : string :=
  match s with
  | "" => ""
  | String c rest => String (lower c) (lowercase rest)
  end.

Fixpoint drop_spaces (s : string) : string :=
  match s with
  | "" => ""
  | String c rest => if Ascii.is_space c then drop_spaces rest else s
  end.

Definition trim (s : string) : string :=
  String.rev (drop_spaces (String.rev (drop_spaces s))).

(** "name (case-insensitive, trimmed) as the natural key" *)
Definition drug_key (name : string) : string := lowercase (trim name).

(** "enumerate all C(n,2) unordered pairs using a stable order (nested
    traversal i<j)": every element paired with each later one. *)
Fixpoint unordered_pairs (l : list string) : list (string * string) :=
  match l with
  | [] => []
  | x :: rest => ((λ y, (x, y)) <$> rest) ++ unordered_pairs rest
  end.



(** "whose drug participates in any cross-source InteractionRecord" *)
Definition participates (drug : string) : bool :=
  bool_decide (Exists (λ i, MultiRx.drug1 i = drug ∨ MultiRx.drug2 i = drug)
                      MultiRx.CROSS_INTERACTIONS).

(** The slot assignments of a medicine: its [slot] field names one bucket,
    or several joined by [" + "]. *)
Fixpoint split_plus (acc s : string) : list string :=
  match s with
  | "" => [String.rev acc]
  | String " " (String "+" (String " " rest)) => String.rev acc :: split_plus "" rest
  | String c rest => split_plus (String c acc) rest
  end.

Definition slot_assignments (slot : string) : list string := split_plus "" slot.

(** "For each prescription, for each of its slot assignments, append a
    ScheduleEntry tagged with that prescription's source identifier into
    the corresponding slot bucket.  No cross-prescription deduplication."
    The bucket of one slot, conflict flags not yet set. *)
Definition merge (rxs : list MultiRx.prescription) (slot : string)
  : list MultiRx.schedule_entry :=
  rx ← rxs;
  m ← MultiRx.medicines rx;
  if bool_decide (slot ∈ slot_assignments (MultiRx.slot m))
  then [ {| MultiRx.e_name := MultiRx.name m;
            MultiRx.e_dose := MultiRx.dose m;
            MultiRx.e_color := MultiRx.color rx;
            MultiRx.e_source := MultiRx.doctor rx;
            MultiRx.e_flag := None |} ]
  else [].

(** An entry with its conflict flag taken off. *)
Definition unflagged (e : MultiRx.schedule_entry) : MultiRx.schedule_entry :=
  {| MultiRx.e_name := MultiRx.e_name e;
     MultiRx.e_dose := MultiRx.e_dose e;
     MultiRx.e_color := MultiRx.e_color e;
     MultiRx.e_source := MultiRx.e_source e;
     MultiRx.e_flag := None |}.

End Spec.

(** * JavaScript string primitives the pages call *)
Module Js.

(** [s.startsWith(p)] *)
Fixpoint startsWith (s p : string) {struct p} : bool :=
  match p, s with
  | "", _ => true
  | String a p', String b s' => bool_decide (a = b) && startsWith s' p'
  | String _ _, "" => false
  end.

(** [s.includes(sub)]: [sub] starts at some position of [s]. *)
Fixpoint str_includes (s sub : string) : bool :=
  startsWith s sub ||
  match s with
  | "" => false
  | String _ rest => str_includes rest sub
  end.

(** The test of the regular expression [[0-9]]; [\D] is its complement. *)
Definition is_digit (c : ascii) : bool :=
  let n := nat_of_ascii c in bool_decide (48 ≤ n ≤ 57).

(** [s.replace(re, "")] for a global one-character class [re]: the
    characters the class matches are dropped. *)
Fixpoint remove_chars (drop : ascii → bool) (s : string) : string :=
  match s with
  | "" => ""
  | String c rest =>
      if drop c then remove_chars drop rest else String c (remove_chars drop rest)
  end.

End Js.

(** * The suggestion list of the checker (src/src/main.jsx, [DrugCheckerPage])

    [String.prototype.toLowerCase] is a parameter: the pages only ever
    compare its results. *)
Module DrugSuggest.
Import DrugChecker.

Section WithToLowerCase.
Variable toLowerCase : string → string.

(** [DRUG_DATABASE.filter((d) => d.toLowerCase().includes(input.toLowerCase())
      && !drugs.includes(d) && input.length > 0)] *)
Definition suggestions (s : state) : list string :=
  filter (λ d, Js.str_includes (toLowerCase d) (toLowerCase (input s))
               && negb (includes (drugs s) d)
               && bool_decide (0 < String.length (input s)) = true)
         DRUG_DATABASE.

(** [{showSuggestions && suggestions.length > 0 && ( ... )}]: the rows of
    the dropdown, none when it is not rendered. *)
Definition dropdown (s : state) : list string :=
  if showSuggestions s && bool_decide (0 < length (suggestions s))
  then suggestions s else [].

End WithToLowerCase.

End DrugSuggest.

(** * The vault page (src/unnamed/part_002, [VaultPage]) *)
Module VaultPage.

Record vault_item := VaultItem {
  id : Z;
  date : string;
  doctor : string;
  hospital : string;
  type : string;
  medicines : list string;
  tags : list string;
  days : Z;
  color : string
}.

Definition VAULT_DATA : list vault_item := [
  {| id := 1; date := "Feb 25, 2026"; doctor := "Dr. Ramesh Reddy";
     hospital := "Apollo Clinic, Hyderabad"; type := "Cardiology";
     medicines := ["Amlodipine 5mg"; "Atorvastatin 10mg"; "Aspirin 75mg"];
     tags := ["BP"; "Cholesterol"]; days := 3; color := "#00c8ff" |};
  {| id := 2; date := "Jan 12, 2026"; doctor := "Dr. Sunita Sharma";
     hospital := "KIMS Hospital, Secunderabad"; type := "Endocrinology";
     medicines := ["Metformin 500mg"; "Glimepiride 1mg"];
     tags := ["Diabetes"]; days := 49; color := "#00ffb4" |};
  {| id := 3; date := "Dec 5, 2025"; doctor := "Dr. Anjali Nair";
     hospital := "City Health Center"; type := "General";
     medicines := ["Pantoprazole 40mg"; "Domperidone 10mg"; "ORS Sachets"];
     tags := ["Acidity"; "GI"]; days := 88; color := "#a78bfa" |};
  {| id := 4; date := "Nov 18, 2025"; doctor := "Dr. Venkat Rao";
     hospital := "Govt. Primary Health Center"; type := "General";
     medicines := ["Paracetamol 500mg"; "Cetirizine 10mg"; "Amoxicillin 500mg"];
     tags := ["Fever"; "Allergy"]; days := 102; color := "#f59e0b" |}
].

(** The three [useState] cells of the page. *)
Record state := State {
  search : string;
  compareIds : list Z;
  tab : string
}.

Definition init : state := {| search := ""; compareIds := []; tab := "history" |}.

Definition tabs : list string := ["history"; "allergies"; "export"].

Section WithToLowerCase.
Variable toLowerCase : string → string.

(** The predicate of [filtered]:
    [v.doctor.toLowerCase().includes(search.toLowerCase()) ||
     v.medicines.some((m) => m.toLowerCase().includes(search.toLowerCase())) ||
     v.tags.some((t) => t.toLowerCase().includes(search.toLowerCase()))] *)
Definition item_matches (q : string) (v : vault_item) : bool :=
  Js.str_includes (toLowerCase (doctor v)) (toLowerCase q)
  || existsb (λ m, Js.str_includes (toLowerCase m) (toLowerCase q)) (medicines v)
  || existsb (λ t, Js.str_includes (toLowerCase t) (toLowerCase q)) (tags v).

(** [const filtered = VAULT_DATA.filter(...)] *)
Definition filtered (q : string) : list vault_item :=
  filter (λ v, item_matches q v = true) VAULT_DATA.

(** The controls of the page; each exists only while the markup that
    carries it is rendered. *)
Inductive event :=
| ClickTab (t : string)      (* a button of the tab bar *)
| ChangeSearch (q : string)  (* typing in the search bar *)
| ClickCompare (item : Z)    (* the compare button of the card of an item *)
| ClickClear.                (* "Compare Now" or "Cancel" of the banner *)

(** The state after an event, [None] when the control is not on screen.
    The search bar, the banner and the cards are inside
    [{tab === "history" && ( ... )}]; a card exists for each element of
    [filtered]; the banner for one or two selected ids. *)
Definition step (e : event) (s : state) : option state :=
  match e with
  | ClickTab t =>
      if bool_decide (t ∈ tabs)
      then Some {| search := search s; compareIds := compareIds s; tab := t |}
      else None
  | ChangeSearch q =>
      if bool_decide (tab s = "history")
      then Some {| search := q; compareIds := compareIds s; tab := tab s |}
      else None
  | ClickCompare item =>
      if bool_decide (tab s = "history") && includes (id <$> filtered (search s)) item
      then Some {| search := search s;
                   compareIds := Vault.toggleCompare item (compareIds s);
                   tab := tab s |}
      else None
  | ClickClear =>
      if bool_decide (tab s = "history")
         && (bool_decide (length (compareIds s) = 2) || bool_decide (length (compareIds s) = 1))
      then Some {| search := search s; compareIds := []; tab := tab s |}
      else None
  end.

Inductive reachable : state → Prop :=
| reach_init : reachable init
| reach_step e s s' : reachable s → step e s = Some s' → reachable s'.

(** The cards on screen whose button reads "Selected":
    [isSelected={compareIds.includes(item.id)}]. *)
Definition selected_cards (s : state) : list vault_item :=
  if bool_decide (tab s = "history")
  then filter (λ v, includes (compareIds s) (id v) = true) (filtered (search s))
  else [].

End WithToLowerCase.

(** The banner above the cards: [compareIds.length === 2] announces two
    selected prescriptions, [compareIds.length === 1] asks for one more. *)
Inductive banner := TwoSelected | SelectOneMore.

Definition compare_banner (s : state) : option banner :=
  if bool_decide (tab s = "history") then
    if bool_decide (length (compareIds s) = 2) then Some TwoSelected
    else if bool_decide (length (compareIds s) = 1) then Some SelectOneMore
    else None
  else None.

End VaultPage.

(** * The application shell (src/unnamed/part_001, [App]) and its links *)
Module App.

(** The page components, in the order of the conditionals of the markup:
    [{page === "home" && <HomePage />}] and so on. *)
Inductive component :=
| HomePage | ScanPage | DrugCheckerPage | SchedulePage | VaultPage
| MultiPrescriptionPage.

#[global] Instance component_eq_dec : EqDecision component.
Proof. solve_decision. Defined.

Definition routes : list (string * component) := [
  ("home", HomePage); ("scan", ScanPage); ("drug-checker", DrugCheckerPage);
  ("schedule", SchedulePage); ("vault", VaultPage);
  ("multi-prescription", MultiPrescriptionPage)
].

(** The [page] cell, and the paths handed to [history.pushState], latest
    first. *)
Record state := State {
  page : string;
  pushed : list string
}.

(** [useState(() => getPage(window.location.pathname))] *)
Definition init (pathname : string) : state :=
  {| page := Router.getPage pathname; pushed := [] |}.

(** [handleClick]: [anchor] is the [href] attribute of the closest
    enclosing [a[href]] of the click target, if there is one.
    [if (!anchor) return;
     if (!href || href.startsWith("http") || href.startsWith("#")) return;
     window.history.pushState({}, "", href); setPage(getPage(href));] *)
Definition handleClick (anchor : option string) (s : state) : state :=
  match anchor with
  | None => s
  | Some href =>
      if bool_decide (href = "") || Js.startsWith href "http" || Js.startsWith href "#"
      then s
      else {| page := Router.getPage href; pushed := href :: pushed s |}
  end.

(** [handlePop]: [setPage(getPage(window.location.pathname))] *)
Definition handlePop (pathname : string) (s : state) : state :=
  {| page := Router.getPage pathname; pushed := pushed s |}.

Inductive event :=
| Click (anchor : option string)
| PopState (pathname : string).

Definition handle (e : event) (s : state) : state :=
  match e with
  | Click anchor => handleClick anchor s
  | PopState pathname => handlePop pathname s
  end.

Definition run (evs : list event) (s : state) : state :=
  foldl (λ st e, handle e st) s evs.

(** The page components the markup mounts. *)
Definition mounted (s : state) : list component :=
  (filter (λ r, page s = r.1) routes).*2.

(** [navLinks] of src/src/components/Navbar.jsx: label and href. *)
Definition navLinks : list (string * string) := [
  ("Home", "/"); ("Scan Prescription", "/scan"); ("Drug Checker", "/drug-checker");
  ("Schedule", "/schedule"); ("Vault", "/vault"); ("Multi-Rx", "/multi-prescription")
].

(** The [FeatureCard]s of [HomePage] (src/src/main.jsx): title and href. *)
Definition featureCards : list (string * string) := [
  ("Scan Prescription", "/scan");
  ("Drug Interaction Checker", "/drug-checker");
  ("Dosage Anomaly Detection", "/dosage");
  ("Medication Schedule", "/schedule");
  ("Prescription Vault", "/vault");
  ("Multi-Prescription Mode", "/multi-prescription")
].

End App.

(** * The scan page (src/src/pages/ScanPage.jsx) *)
Module ScanPage.

(** [ConfidenceBadge]: [score] is a whole percentage.
    [score >= 90 ? "#00ffb4" : score >= 75 ? "#f59e0b" : "#ef4444"] *)
Definition badge_color (score : Z) : string :=
  if bool_decide (90 ≤ score)%Z then "#00ffb4"
  else if bool_decide (75 ≤ score)%Z then "#f59e0b"
  else "#ef4444".

(** [score >= 90 ? "High" : score >= 75 ? "Medium" : "Low"] *)
Definition badge_label (score : Z) : string :=
  if bool_decide (90 ≤ score)%Z then "High"
  else if bool_decide (75 ≤ score)%Z then "Medium"
  else "Low".

(** A visit of the page.  [App] mounts [ScanPage] while its page is
    "scan" and unmounts it on any navigation away; a later mount starts
    from fresh cells.  [setTimeout] callbacks are never cleared, so a
    callback outlives the mount that scheduled it; by then its
    [setState] belongs to a component that is gone, and running it changes
    nothing on screen.

    [mounted]: the page is on screen; [phase] and [dragOver]: the cells
    [state] and [dragOver] of the current mount; [timers]: callbacks
    scheduled by the current mount and not yet run; [stale]: callbacks
    scheduled by earlier mounts and not yet run. *)
Record state := State {
  mounted : bool;
  phase : string;
  dragOver : bool;
  timers : nat;
  stale : nat
}.

(** The page freshly mounted: [useState("upload")], [useState(false)]. *)
Definition fresh (leftover : nat) : state :=
  {| mounted := true; phase := "upload"; dragOver := false;
     timers := 0; stale := leftover |}.

Definition init : state := fresh 0.

Inductive event :=
| DragOver | DragLeave | Drop  (* on the upload zone *)
| ClickScan                    (* "Scan with AI" *)
| ClickReset                   (* "Scan Again" *)
| TimerFires                   (* a callback of the current mount runs *)
| StaleTimerFires              (* a callback of an earlier mount runs *)
| Unmount                      (* navigation to another page *)
| Mount.                       (* navigation back to /scan *)

Definition set_drag (b : bool) (s : state) : state :=
  {| mounted := mounted s; phase := phase s; dragOver := b;
     timers := timers s; stale := stale s |}.

(** [handleScan]: [setState("scanning"); setTimeout(() => setState("results"), 2800);] *)
Definition handleScan (s : state) : state :=
  {| mounted := mounted s; phase := "scanning"; dragOver := dragOver s;
     timers := S (timers s); stale := stale s |}.

(** The control of an event is on screen: the page is mounted and shows
    the block of the given phase. *)
Definition shows (p : string) (s : state) : bool :=
  mounted s && bool_decide (phase s = p).

(** The state after an event, [None] when the event cannot occur: the
    upload zone and its button are inside [{state === "upload" && ...}],
    the reset button inside [{state === "results" && ...}], and a callback
    runs only if one is scheduled. *)
Definition step (e : event) (s : state) : option state :=
  match e with
  | DragOver => if shows "upload" s then Some (set_drag true s) else None
  | DragLeave | Drop => if shows "upload" s then Some (set_drag false s) else None
  | ClickScan => if shows "upload" s then Some (handleScan s) else None
  | ClickReset =>
      if shows "results" s
      then Some {| mounted := mounted s; phase := "upload"; dragOver := dragOver s;
                   timers := timers s; stale := stale s |}
      else None
  | TimerFires =>
      match timers s with
      | 0 => None
      | S n => Some {| mounted := mounted s; phase := "results";
                       dragOver := dragOver s; timers := n; stale := stale s |}
      end
  | StaleTimerFires =>
      match stale s with
      | 0 => None
      | S n => Some {| mounted := mounted s; phase := phase s;
                       dragOver := dragOver s; timers := timers s; stale := n |}
      end
  | Unmount =>
      if mounted s
      then Some {| mounted := false; phase := phase s; dragOver := dragOver s;
                   timers := 0; stale := stale s + timers s |}
      else None
  | Mount => if mounted s then None else Some (fresh (stale s))
  end.

Inductive reachable : state → Prop :=
| reach_init : reachable init
| reach_step e s s' : reachable s → step e s = Some s' → reachable s'.


End ScanPage.

(** * The schedule page (src/src/pages/SchedulePage.jsx) *)
Module SchedulePage.

Record med := Med {
  name : string;
  dose : string;
  food : string;
  days : string;
  daysLeft : Z;
  color : string;
  tag : string;
  note : option string
}.

(** [SCHEDULE_DATA], as [Object.entries] lists it. *)
Definition SCHEDULE_DATA : list (string * list med) := [
  ("Morning", [
    {| name := "Metformin"; dose := "500mg"; food := "After food"; days := "30";
       daysLeft := 23; color := "#00ffb4"; tag := "Diabetes"; note := None |};
    {| name := "Atorvastatin"; dose := "10mg"; food := "Any time"; days := "30";
       daysLeft := 23; color := "#a78bfa"; tag := "Cholesterol";
       note := Some "Alternatively can be taken at night" |};
    {| name := "Pantoprazole"; dose := "40mg"; food := "Before food"; days := "14";
       daysLeft := 7; color := "#f59e0b"; tag := "Acidity"; note := None |}
  ]);
  ("Afternoon", [
    {| name := "Metformin"; dose := "500mg"; food := "After food"; days := "30";
       daysLeft := 23; color := "#00ffb4"; tag := "Diabetes"; note := None |}
  ]);
  ("Evening", []);
  ("Night", [
    {| name := "Amlodipine"; dose := "5mg"; food := "Any time"; days := "30";
       daysLeft := 23; color := "#00c8ff"; tag := "BP";
       note := Some "Take at the same time every night" |}
  ])
].

Definition days_tabs : list string :=
  ["Today"; "Tomorrow"; "Day 3"; "Day 4"; "Day 5"; "Day 6"; "Day 7"].

(** The cells [activeDay] and [view]; nothing calls [setView]. *)
Record state := State {
  activeDay : string;
  view : string
}.

Definition init : state := {| activeDay := "Today"; view := "grid" |}.

(** [onClick={() => setActiveDay(d)}] on the button of day [d]. *)
Definition setActiveDay (d : string) (s : state) : state :=
  {| activeDay := d; view := view s |}.

(** The sessions: clicks on the buttons of [days.map(...)]. *)
Inductive reachable : state → Prop :=
| reach_init : reachable init
| reach_click d s : reachable s → d ∈ days_tabs → reachable (setActiveDay d s).

(** The tabs with their [active] class:
    [className={`day-tab ${activeDay === d ? "active" : ""}`}]. *)
Definition day_tabs_view (s : state) : list (string * bool) :=
  (λ d, (d, bool_decide (activeDay s = d))) <$> days_tabs.

(** A column of the grid: its title, the count in its header, and its body:
    the placeholder when [meds.length === 0], else one [MedPill] per
    medicine. *)
Record column := Column {
  col_title : string;
  col_count : nat;
  col_empty : bool;
  col_pills : list med
}.

Definition grid (s : state) : list column :=
  (λ kv, {| col_title := kv.1;
            col_count := length kv.2;
            col_empty := bool_decide (length kv.2 = 0);
            col_pills := if bool_decide (length kv.2 = 0) then [] else kv.2 |})
    <$> SCHEDULE_DATA.

End SchedulePage.

(** * The counters of the home page (src/src/main.jsx, [StatCard]) *)
Module StatCard.

(** [value.replace(/\D/g, "")], the argument of [parseInt]. *)
Definition digits_of (value : string) : string :=
  Js.remove_chars (λ c, negb (Js.is_digit c)) value.

(** [const suffix = value.replace(/[0-9]/g, "")] *)
Definition suffix (value : string) : string :=
  Js.remove_chars Js.is_digit value.

End StatCard.

(** * Facts about the drug interaction checker *)
Section DrugCheckerFacts.
Import DrugChecker.

Lemma includes_spec {A} `{EqDecision A} (xs : list A) (x : A) :
  includes xs x = true ↔ x ∈ xs.
Proof. unfold includes. apply bool_decide_eq_true. Qed.

Lemma addDrug_present name s :
  name ∈ drugs s → drugs (addDrug name s) = drugs s.
Proof.
  intros Hin. unfold addDrug, includes; simpl.
  by rewrite bool_decide_eq_true_2.
Qed.

Lemma addDrug_absent name s :
  name ∉ drugs s → drugs (addDrug name s) = drugs s ++ [name].
Proof.
  intros Hnin. unfold addDrug, includes; simpl.
  by rewrite bool_decide_eq_false_2.
Qed.

Lemma NoDup_addDrug name s :
  NoDup (drugs s) → NoDup (drugs (addDrug name s)).
Proof.
  intros Hnd. destruct (decide (name ∈ drugs s)) as [Hin|Hnin].
  - by rewrite addDrug_present.
  - rewrite addDrug_absent by done.
    apply NoDup_app. split_and!; [done| |apply NoDup_singleton].
    intros x Hx ->%list_elem_of_singleton. done.
Qed.

Lemma NoDup_removeDrug name s :
  NoDup (drugs s) → NoDup (drugs (removeDrug name s)).
Proof. intros Hnd. simpl. by apply NoDup_filter. Qed.

Lemma onKeyDown_cases key s :
  onKeyDown key s = s ∨ onKeyDown key s = addDrug (input s) s.
Proof. unfold onKeyDown. destruct (_ && _); auto. Qed.

Lemma onCheck_cases s :
  (length (drugs s) < 2 ∧ onCheck s = s) ∨
  (2 ≤ length (drugs s) ∧ drugs (onCheck s) = drugs s ∧ checked (onCheck s) = true).
Proof. unfold onCheck. case_bool_decide; [left|right]; simpl; auto with lia. Qed.

Lemma NoDup_handle e s : NoDup (drugs s) → NoDup (drugs (handle e s)).
Proof.
  intros Hnd. destruct e as [v|key|d|d|]; simpl.
  - done.
  - destruct (onKeyDown_cases key s) as [-> | ->]; auto using NoDup_addDrug.
  - by apply NoDup_addDrug.
  - by apply NoDup_filter.
  - destruct (onCheck_cases s) as [[_ ->]|(_ & -> & _)]; done.
Qed.

Lemma run_snoc evs e s : run (evs ++ [e]) s = handle e (run evs s).
Proof. unfold run. by rewrite foldl_snoc. Qed.

Lemma run_app evs1 evs2 s : run (evs1 ++ evs2) s = run evs2 (run evs1 s).
Proof. unfold run. by rewrite foldl_app. Qed.

(** An invariant of the handlers holds in every reachable state. *)
Lemma reachable_ind (P : state → Prop) :
  P init → (∀ e s, P s → P (handle e s)) → ∀ s, reachable s → P s.
Proof.
  intros Hinit Hstep s [evs ->].
  induction evs as [|e evs IH] using rev_ind; [done|].
  rewrite run_snoc. by apply Hstep.
Qed.

Lemma NoDup_init : NoDup (drugs init).
Proof. by_compute. Qed.

Lemma NoDup_reachable s : reachable s → NoDup (drugs s).
Proof.
  apply (reachable_ind (λ s, NoDup (drugs s))).
  - apply NoDup_init.
  - intros e s' Hnd. by apply NoDup_handle.
Qed.

(** Results are on screen only for a list the Check button accepts. *)
Lemma checked_handle e s :
  checked (handle e s) = true →
  drugs (handle e s) = drugs s ∧
  (checked s = true ∨ (e = ClickCheck ∧ 2 ≤ length (drugs s))).
Proof.
  destruct e as [v|key|d|d|]; simpl; try done.
  - auto.
  - destruct (onKeyDown_cases key s) as [-> | ->]; [auto|done].
  - destruct (onCheck_cases s) as [[_ ->]|(? & -> & _)]; auto.
Qed.

Lemma checked_reachable s :
  reachable s → checked s = true → 2 ≤ length (drugs s).
Proof.
  apply (reachable_ind (λ s, checked s = true → 2 ≤ length (drugs s))); [done|].
  intros e s' IH [Heq Hc]%checked_handle. rewrite Heq.
  destruct Hc as [Hc|[_ Hlen]]; auto.
Qed.

(** The literal counts of the summary cards are the tier counts of the
    cards rendered below them. *)
Lemma summary_counts_cards s r :
  results (render s) = Some r →
  sum_critical r = tier_count "critical" r ∧
  sum_moderate r = tier_count "moderate" r ∧
  sum_minor r = tier_count "minor" r ∧
  unknown_count r = 0.
Proof.
  unfold render; simpl. destruct (checked s); [|done].
  intros [= <-]. by vm_compute.
Qed.

(** If results are on screen after a session, the session reads
    [pre ++ ClickCheck :: post] where the press was accepted and the drug
    list has been the same at every moment since. *)
Lemma checked_run_split evs :
  checked (run evs init) = true →
  ∃ pre post,
    evs = pre ++ ClickCheck :: post ∧
    2 ≤ length (drugs (run pre init)) ∧
    ∀ k, drugs (run (pre ++ ClickCheck :: take k post) init) = drugs (run pre init)
         ∧ checked (run (pre ++ ClickCheck :: take k post) init) = true.
Proof.
  induction evs as [|e evs IH] using rev_ind; [done|].
  rewrite run_snoc. intros Hchk.
  destruct (checked_handle _ _ Hchk) as [Heq [Hc|[-> Hlen]]].
  - destruct (IH Hc) as (pre & post & Hevs & Hlen & Hk).
    exists pre, (post ++ [e]). split_and!; [by rewrite Hevs, <-app_assoc|done|].
    intros k. destruct (decide (k ≤ length post)) as [Hle|Hgt].
    + rewrite take_app_le by done. apply Hk.
    + rewrite take_ge by (rewrite length_app; simpl; lia).
      replace (pre ++ ClickCheck :: post ++ [e]) with (evs ++ [e])
        by (by rewrite Hevs, <-app_assoc).
      rewrite run_snoc. split; [|done].
      rewrite Heq. destruct (Hk (length post)) as [Hd _].
      by rewrite firstn_all, <-Hevs in Hd.
  - exists evs, []. split_and!; [done..|].
    intros k. rewrite take_nil, run_snoc. done.
Qed.

(** ** Properties of the page *)

(** C1. Once a check has been run, the severity summary (0 critical,
    1 moderate, 2 minor) and the list of interaction records shown (the
    three [DEMO_INTERACTIONS]) are the same whatever the drug list holds:
    any two states of the page in which results are displayed, with drug
    lists as different as one likes, render the same results block. *)
Theorem check_output_ignores_drugs s1 s2 :
  checked s1 = true → checked s2 = true →
  results (render s1) = results (render s2) ∧
  ∃ r, results (render s1) = Some r ∧
       sum_critical r = 0 ∧ sum_moderate r = 1 ∧ sum_minor r = 2 ∧
       cards r = DEMO_INTERACTIONS.
Proof.
  intros H1 H2. unfold render; simpl. rewrite H1, H2.
  split; [done|]. eexists; split; [done|]. by simpl.
Qed.

Lemma check_output_ignores_drugs_witness :
  let s1 := run [ClickCheck] init in
  let s2 := run [ClickRemove "Metformin"; Change "war"; ClickSuggestion "Warfarin";
                 ClickCheck] init in
  drugs s1 ≠ drugs s2 ∧
  results (render s1) = results (render s2) ∧
  ∃ r, results (render s1) = Some r ∧
       sum_critical r = 0 ∧ sum_moderate r = 1 ∧ sum_minor r = 2 ∧
       cards r = DEMO_INTERACTIONS.
Proof.
  split; [by vm_compute|].
  apply check_output_ignores_drugs; reflexivity.
Defined.

(** C2. In every results block the page displays, the safe banner (the
    "no critical findings" flag) is shown if and only if the critical
    count is zero and no record of an unknown tier is among the cards:
    [safe = (criticalCount == 0 && unknownCount == 0)].  The critical
    count on screen is the number of cards of severity "critical". *)
Theorem safe_banner_iff_no_critical_no_unknown s r :
  results (render s) = Some r →
  (safe_banner r = true ↔ sum_critical r = 0 ∧ unknown_count r = 0) ∧
  safe_banner r = bool_decide (sum_critical r = 0) && bool_decide (unknown_count r = 0) ∧
  sum_critical r = tier_count "critical" r.
Proof.
  intros Hr. destruct (summary_counts_cards s r Hr) as (Hc & _ & _ & Hu).
  rewrite Hu. revert Hr Hc. unfold render; simpl.
  destruct (checked s); [|done]. intros [= <-] Hc. by simpl.
Qed.

Lemma safe_banner_iff_no_critical_no_unknown_witness :
  ∃ r, results (render (run [ClickCheck] init)) = Some r ∧
       (safe_banner r = true ↔ sum_critical r = 0 ∧ unknown_count r = 0) ∧
       safe_banner r = bool_decide (sum_critical r = 0) && bool_decide (unknown_count r = 0) ∧
       sum_critical r = tier_count "critical" r.
Proof.
  eexists. split; [reflexivity|].
  apply (safe_banner_iff_no_critical_no_unknown (run [ClickCheck] init)).
  reflexivity.
Defined.

(** C3. With fewer than two drugs in the list a check cannot run: the
    Check button is disabled, pressing it changes nothing, and the page
    shows no interaction record and no safe banner.  The result for a 0-
    or 1-drug list is empty and its safe flag is unset, not true. *)
Theorem small_drug_set_yields_no_result s :
  reachable s → length (drugs s) < 2 →
  check_disabled (render s) = true ∧
  onCheck s = s ∧
  results (render (onCheck s)) = None ∧
  shown_records (render (onCheck s)) = [] ∧
  safe_flag (render (onCheck s)) = None ∧
  safe_flag (render (onCheck s)) ≠ Some true.
Proof.
  intros Hr Hlt.
  assert (Hs : onCheck s = s).
  { unfold onCheck. by rewrite bool_decide_eq_true_2. }
  assert (Hc : checked s = false).
  { destruct (checked s) eqn:E; [|done].
    pose proof (checked_reachable s Hr E). lia. }
  rewrite Hs. unfold shown_records, safe_flag, render; simpl. rewrite Hc; simpl.
  split_and!; try done. by apply bool_decide_eq_true_2.
Qed.

Lemma small_drug_set_yields_no_result_witness :
  let s := run [ClickCheck; ClickRemove "Metformin"; ClickRemove "Amlodipine";
                ClickRemove "Pantoprazole"] init in
  drugs s = ["Atorvastatin"] ∧
  check_disabled (render s) = true ∧
  onCheck s = s ∧
  results (render (onCheck s)) = None ∧
  shown_records (render (onCheck s)) = [] ∧
  safe_flag (render (onCheck s)) = None ∧
  safe_flag (render (onCheck s)) ≠ Some true.
Proof.
  split; [reflexivity|].
  apply small_drug_set_yields_no_result.
  - by eexists.
  - vm_compute. lia.
Defined.

Lemma elem_of_unordered_pairs l a b :
  (a, b) ∈ Spec.unordered_pairs l → a ∈ l ∧ b ∈ l.
Proof.
  induction l as [|x l IH]; simpl; [by intros ?%elem_of_nil|].
  rewrite elem_of_app, list_elem_of_fmap. intros [(y & [= -> ->] & Hy)|Hin].
  - split; [left|by right].
  - destruct (IH Hin). split; by right.
Qed.

(** Over a list without duplicates no unordered pair comes up twice: the
    enumeration has no repeated pair, no pair in both orders, and no pair
    of a name with itself. *)
Lemma unordered_pairs_NoDup l :
  NoDup l →
  NoDup (Spec.unordered_pairs l) ∧
  ∀ a b, (a, b) ∈ Spec.unordered_pairs l → a ≠ b ∧ (b, a) ∉ Spec.unordered_pairs l.
Proof.
  induction 1 as [|x l Hx Hnd [IHnd IHsw]]; simpl.
  { split; [constructor|]. by intros a b ?%elem_of_nil. }
  split.
  - apply NoDup_app. split_and!; [|
      intros [a b] (y & [= -> ->] & Hy)%list_elem_of_fmap Hin;
      by apply elem_of_unordered_pairs in Hin as [? _] | done].
    apply NoDup_fmap_2; [by intros ?? [=]|done].
  - intros a b. rewrite !elem_of_app, !list_elem_of_fmap.
    intros [(y & [= -> ->] & Hy)|Hin].
    + split; [by intros ->|].
      intros [(z & [= -> ->] & Hz)|[_ ?]%elem_of_unordered_pairs]; done.
    + destruct (IHsw _ _ Hin) as [Hne Hsw].
      split; [done|].
      intros [(z & [= -> ->] & Hz)|Hin']; [|done].
      by apply elem_of_unordered_pairs in Hin as [? ?].
Qed.

(** C6. The drug list has set semantics: adding a name that is already
    present leaves the list unchanged, so the list never holds the same
    name twice and the enumeration of its unordered pairs meets no pair
    twice; [addDrug] and [removeDrug] both preserve the absence of
    duplicates, which therefore holds in every state the page reaches. *)
Theorem drug_list_has_set_semantics s name :
  (name ∈ drugs s → drugs (addDrug name s) = drugs s) ∧
  (NoDup (drugs s) →
     NoDup (drugs (addDrug name s)) ∧ NoDup (drugs (removeDrug name s))) ∧
  (reachable s →
     NoDup (drugs s) ∧ NoDup (Spec.unordered_pairs (drugs s)) ∧
     ∀ a b, (a, b) ∈ Spec.unordered_pairs (drugs s) →
            a ≠ b ∧ (b, a) ∉ Spec.unordered_pairs (drugs s)).
Proof.
  split_and!.
  - apply addDrug_present.
  - intros Hnd. split; [by apply NoDup_addDrug | by apply NoDup_removeDrug].
  - intros Hnd%NoDup_reachable. split; [done|].
    by apply unordered_pairs_NoDup.
Qed.

Lemma drug_list_has_set_semantics_witness :
  drugs (addDrug "Metformin" init) = drugs init ∧
  (NoDup (drugs (addDrug "Metformin" init)) ∧
   NoDup (drugs (removeDrug "Metformin" init))) ∧
  NoDup (drugs init).
Proof.
  destruct (drug_list_has_set_semantics init "Metformin") as (Hadd & Hpres & Hreach).
  assert (Hin : "Metformin" ∈ drugs init) by (by_compute).
  assert (Hnd : NoDup (drugs init)) by (by_compute).
  assert (Hr : reachable init) by (by exists []).
  split; [exact (Hadd Hin)|].
  split; [exact (Hpres Hnd) | exact (proj1 (Hreach Hr))].
Defined.

(** C7, as stated, fails: the name typed into the text field reaches
    [addDrug] as it is, and [includes] compares strings exactly.  Typing
    "metformin" and pressing Enter on the initial page, whose list holds
    "Metformin", adds a fifth entry; so does "Metformin" followed by a
    space. *)
Lemma case_variant_becomes_second_entry :
  let s := run [Change "metformin"; KeyDown "Enter"] init in
  let s' := run [Change "Metformin "; KeyDown "Enter"] init in
  "Metformin" ∈ drugs init ∧
  Spec.drug_key "metformin" = Spec.drug_key "Metformin" ∧
  Spec.drug_key "Metformin " = Spec.drug_key "Metformin" ∧
  drugs s = ["Metformin"; "Amlodipine"; "Pantoprazole"; "Atorvastatin"; "metformin"] ∧
  drugs s' = ["Metformin"; "Amlodipine"; "Pantoprazole"; "Atorvastatin"; "Metformin "] ∧
  ¬ (∀ st a b, reachable st → a ∈ drugs st →
               Spec.drug_key a = Spec.drug_key b →
               drugs (addDrug b st) = drugs st).
Proof.
  assert (Hin : "Metformin" ∈ drugs init) by (by_compute).
  split_and!; [done|by vm_compute..|].
  intros Hclaim.
  specialize (Hclaim init "Metformin" "metformin" (ex_intro _ [] eq_refl) Hin eq_refl).
  by vm_compute in Hclaim.
Qed.

(** C7, amended. Drug names are keyed by exact string equality: adding a
    name identical to one in the list creates no second entry, and a name
    that is not in the list character for character is appended as a new,
    distinct entry, the entries already there being kept. *)
Theorem drug_names_keyed_by_exact_string s name :
  (name ∈ drugs s → drugs (addDrug name s) = drugs s) ∧
  (name ∉ drugs s →
     drugs (addDrug name s) = drugs s ++ [name] ∧
     length (drugs (addDrug name s)) = S (length (drugs s))).
Proof.
  split; [apply addDrug_present|].
  intros Hnin. rewrite addDrug_absent by done.
  split; [done|]. rewrite length_app; simpl; lia.
Qed.

Lemma drug_names_keyed_by_exact_string_witness :
  drugs (addDrug "Metformin" init) = drugs init ∧
  drugs (addDrug "metformin" init) = drugs init ++ ["metformin"] ∧
  length (drugs (addDrug "metformin" init)) = S (length (drugs init)).
Proof.
  split.
  - apply (proj1 (drug_names_keyed_by_exact_string init "Metformin")).
    by_compute.
  - apply (proj2 (drug_names_keyed_by_exact_string init "metformin")).
    by_compute.
Defined.

(** C8. Results are never shown for a modified drug list.  [addDrug] and
    [removeDrug] both reset [checked]; and whenever a session ends with
    results on screen, it contains a press of the Check button that was
    accepted (the button was enabled), after which the drug list has at
    every moment been the list that was checked. *)
Theorem results_never_stale evs :
  (∀ name, checked (addDrug name (run evs init)) = false ∧
           checked (removeDrug name (run evs init)) = false) ∧
  (∀ r, results (render (run evs init)) = Some r →
        ∃ pre post,
          evs = pre ++ ClickCheck :: post ∧
          check_disabled (render (run pre init)) = false ∧
          ∀ k, drugs (run (pre ++ ClickCheck :: take k post) init)
               = drugs (run pre init)).
Proof.
  split; [done|].
  intros r Hr.
  assert (Hc : checked (run evs init) = true).
  { revert Hr. unfold render; simpl. by destruct (checked _). }
  destruct (checked_run_split evs Hc) as (pre & post & Hevs & Hlen & Hk).
  exists pre, post. split_and!; [done| |intros k; apply Hk].
  simpl. apply bool_decide_eq_false_2. lia.
Qed.

Lemma results_never_stale_witness :
  let evs := [ClickRemove "Metformin"; ClickCheck; Change "asp"] in
  ∃ r, results (render (run evs init)) = Some r ∧
  ∃ pre post,
    evs = pre ++ ClickCheck :: post ∧
    check_disabled (render (run pre init)) = false ∧
    ∀ k, drugs (run (pre ++ ClickCheck :: take k post) init)
         = drugs (run pre init).
Proof.
  eexists. split; [reflexivity|].
  eapply (proj2 (results_never_stale
                   [ClickRemove "Metformin"; ClickCheck; Change "asp"])).
  reflexivity.
Defined.

End DrugCheckerFacts.

(** * Facts about the vault's compare selection *)
Section VaultFacts.
Import Vault.

Lemma toggleCompare_selected id ids :
  id ∈ ids → toggleCompare id ids = filter (λ c, c ≠ id) ids.
Proof. intros Hin. unfold toggleCompare, includes. by rewrite bool_decide_eq_true_2. Qed.

Lemma toggleCompare_room id ids :
  id ∉ ids → length ids < 2 → toggleCompare id ids = ids ++ [id].
Proof.
  intros Hnin Hlt. unfold toggleCompare, includes.
  rewrite bool_decide_eq_false_2 by done. by rewrite bool_decide_eq_true_2.
Qed.

Lemma toggleCompare_full id ids :
  id ∉ ids → 2 ≤ length ids → toggleCompare id ids = ids.
Proof.
  intros Hnin Hge. unfold toggleCompare, includes.
  rewrite !bool_decide_eq_false_2; [done|lia|done].
Qed.

Lemma toggleCompare_ok id ids : selection_ok ids → selection_ok (toggleCompare id ids).
Proof.
  intros [Hlen Hnd]. destruct (decide (id ∈ ids)) as [Hin|Hnin].
  - rewrite toggleCompare_selected by done. split.
    + pose proof (length_filter (λ c, c ≠ id) ids). lia.
    + by apply NoDup_filter.
  - destruct (decide (length ids < 2)) as [Hlt|Hge].
    + rewrite toggleCompare_room by done. split.
      * rewrite length_app; simpl; lia.
      * apply NoDup_app. split_and!; [done| |apply NoDup_singleton].
        by intros x Hx ->%list_elem_of_singleton.
    + rewrite toggleCompare_full by (done || lia). done.
Qed.

Lemma reachable_ok ids : reachable ids → selection_ok ids.
Proof.
  induction 1 as [|e ids _ IH].
  - split; [simpl; lia | constructor].
  - destruct e as [id|]; simpl.
    + by apply toggleCompare_ok.
    + split; [simpl; lia | constructor].
Qed.

(** C9. The compare selection never holds more than two prescriptions
    and never holds one twice.  In every reachable state of [compareIds]
    and for every id, [toggleCompare] removes the id if it is selected,
    adds it at the end when it is not and fewer than two are selected, and
    changes nothing when two other prescriptions are selected. *)
Theorem compare_selection_at_most_two ids id :
  reachable ids →
  (length ids ≤ 2 ∧ NoDup ids) ∧
  (length (toggleCompare id ids) ≤ 2 ∧ NoDup (toggleCompare id ids)) ∧
  (id ∈ ids →
     toggleCompare id ids = filter (λ c, c ≠ id) ids ∧
     (id ∉ toggleCompare id ids) ∧
     ∀ c, c ≠ id → (c ∈ toggleCompare id ids ↔ c ∈ ids)) ∧
  (id ∉ ids → length ids < 2 → toggleCompare id ids = ids ++ [id]) ∧
  (id ∉ ids → length ids = 2 → toggleCompare id ids = ids).
Proof.
  intros Hr. pose proof (reachable_ok ids Hr) as Hok.
  split_and!; try apply Hok; try apply (toggleCompare_ok id ids Hok).
  - intros Hin. rewrite toggleCompare_selected by done. split_and!; [done| |].
    + rewrite list_elem_of_filter. tauto.
    + intros c Hc. rewrite list_elem_of_filter. tauto.
  - apply toggleCompare_room.
  - intros Hnin Hlen. apply toggleCompare_full; [done|lia].
Qed.

Lemma compare_selection_at_most_two_witness :
  let ids := handle (Toggle 2) (handle (Toggle 1) init) in
  ids = (1 :: 2 :: nil)%Z ∧
  (length ids ≤ 2 ∧ NoDup ids) ∧
  toggleCompare 3 ids = ids ∧
  toggleCompare 1 ids = (2 :: nil)%Z ∧
  toggleCompare 2 (handle (Toggle 1) init) = ids.
Proof.
  assert (Hr1 : reachable (handle (Toggle 1) init)) by (apply reach_step, reach_init).
  assert (Hr2 : reachable (handle (Toggle 2) (handle (Toggle 1) init)))
    by (apply reach_step, Hr1).
  destruct (compare_selection_at_most_two _ 3%Z Hr2) as (Hinv & _ & _ & _ & Hfull).
  destruct (compare_selection_at_most_two _ 1%Z Hr2) as (_ & _ & Hsel & _ & _).
  destruct (compare_selection_at_most_two _ 2%Z Hr1) as (_ & _ & _ & Hroom & _).
  split; [reflexivity|]. split; [exact Hinv|].
  split; [apply Hfull; [by_compute | reflexivity]|].
  split.
  - rewrite (proj1 (Hsel ltac:(by_compute))). reflexivity.
  - rewrite Hroom; [reflexivity | by_compute | vm_compute; lia].
Defined.

End VaultFacts.

(** * Facts about the router *)
Section RouterFacts.
Import Router.

Lemma getPage_routed path : path ∈ routed_paths → "/" +:+ getPage path = path.
Proof.
  unfold routed_paths. rewrite !elem_of_cons, elem_of_nil.
  intros [->|[->|[->|[->|[->|[]]]]]]; reflexivity.
Qed.

(** C10. The router is total with "home" as the default: for every path
    string [getPage] returns one of exactly six page identifiers, each of
    which some path reaches, and every path other than /scan,
    /drug-checker, /schedule, /vault and /multi-prescription maps to
    "home". *)
Theorem getPage_total_default_home path :
  getPage path ∈ pages ∧
  (path ∉ routed_paths → getPage path = "home") ∧
  (path ∈ routed_paths → getPage path ≠ "home") ∧
  length pages = 6 ∧ NoDup pages ∧
  Forall (λ p, ∃ path', getPage path' = p) pages.
Proof.
  split_and!.
  - unfold getPage, pages. repeat case_bool_decide; by_compute.
  - unfold routed_paths. rewrite !not_elem_of_cons. intros (?&?&?&?&?&_).
    unfold getPage. by rewrite !bool_decide_eq_false_2.
  - unfold routed_paths. rewrite !elem_of_cons, elem_of_nil.
    intros [->|[->|[->|[->|[->|[]]]]]]; by vm_compute.
  - reflexivity.
  - by_compute.
  - unfold pages. repeat constructor;
      [by exists "/scan" | by exists "/drug-checker" | by exists "/schedule"
      | by exists "/vault" | by exists "/multi-prescription" | by exists "/"].
Qed.

Lemma getPage_total_default_home_witness :
  ("/settings" ∉ routed_paths) ∧ getPage "/settings" = "home" ∧
  "/vault" ∈ routed_paths ∧ getPage "/vault" ≠ "home".
Proof.
  assert (H1 : "/settings" ∉ routed_paths) by (by_compute).
  assert (H2 : "/vault" ∈ routed_paths) by (by_compute).
  split; [exact H1|].
  split; [exact (proj1 (proj2 (getPage_total_default_home "/settings")) H1)|].
  split; [exact H2|].
  exact (proj1 (proj2 (proj2 (getPage_total_default_home "/vault"))) H2).
Defined.

End RouterFacts.

(** * Facts about the multi-prescription page *)
Section MultiRxFacts.
Import MultiRx.

Lemma bucket_other slot : slot ≠ "Morning" → slot ≠ "Night" → bucket slot = [].
Proof.
  intros H1 H2. unfold bucket, MERGED_SCHEDULE. cbn [list_find fst].
  by rewrite !decide_False by done.
Qed.

Lemma merge_other slot :
  slot ≠ "Morning" → slot ≠ "Night" → Spec.merge PRESCRIPTIONS slot = [].
Proof.
  intros H1 H2. unfold Spec.merge, PRESCRIPTIONS. cbn -[bool_decide].
  rewrite !bool_decide_eq_false_2; [done|..];
    rewrite ?not_elem_of_cons; by auto using not_elem_of_nil.
Qed.

(** The slots are exactly the two keys of the object. *)
Lemma slot_cases (P : string → Prop) :
  P "Morning" → P "Night" →
  (∀ slot, slot ≠ "Morning" → slot ≠ "Night" → P slot) → ∀ slot, P slot.
Proof.
  intros HM HN Ho slot.
  destruct (decide (slot = "Morning")) as [->|H1]; [done|].
  destruct (decide (slot = "Night")) as [->|H2]; [done|]. by apply Ho.
Qed.



(** C5, as stated, fails in its general half: Clopidogrel takes part in
    the cross-source interaction of the page, and its entry in the
    Morning bucket has no flag. *)
Lemma clopidogrel_entry_not_flagged :
  let e := {| e_name := "Clopidogrel"; e_dose := "75mg"; e_color := "#00c8ff";
              e_source := "Dr. Ramesh Reddy"; e_flag := None |} in
  bucket "Morning" !! 0 = Some e ∧
  Spec.participates (e_name e) = true ∧
  conflict e = false.
Proof. by vm_compute. Qed.

(** C5, amended. Each bucket of [MERGED_SCHEDULE] holds one entry per
    medicine and originating prescription assigned to that slot, in the
    order of the prescriptions, with the prescriber's name attached and
    nothing merged across prescriptions (a "Morning + Night" medicine is
    in both buckets).  The conflict flag is carried by the entry of the
    second drug of a cross-prescription interaction and by no other
    entry.  The Morning bucket contains both Clopidogrel's and
    Pantoprazole's entries, and Pantoprazole's has the flag set. *)
Theorem merged_schedule_entries_and_flags :
  (∀ slot, Spec.unflagged <$> bucket slot = Spec.merge PRESCRIPTIONS slot) ∧
  (∀ slot e, e ∈ bucket slot →
     (conflict e = true ↔ e_name e ∈ drug2 <$> CROSS_INTERACTIONS) ∧
     (conflict e = true → Spec.participates (e_name e) = true)) ∧
  ∃ clo pan,
    clo ∈ bucket "Morning" ∧ pan ∈ bucket "Morning" ∧
    e_name clo = "Clopidogrel" ∧ e_source clo = "Dr. Ramesh Reddy" ∧
    e_name pan = "Pantoprazole" ∧ e_source pan = "Dr. Sunita Sharma" ∧
    conflict pan = true.
Proof.
  split_and!.
  - apply slot_cases; [reflexivity..|].
    intros slot H1 H2. by rewrite bucket_other, merge_other.
  - apply (slot_cases (λ slot, ∀ e, e ∈ bucket slot → _)).
    + apply Forall_forall. by_compute.
    + apply Forall_forall. by_compute.
    + intros slot H1 H2 e. rewrite bucket_other by done. by intros ?%elem_of_nil.
  - do 2 eexists.
    split; [apply (list_elem_of_lookup_2 _ 0); reflexivity|].
    split; [apply (list_elem_of_lookup_2 _ 3); reflexivity|].
    by vm_compute.
Qed.

Lemma merged_schedule_entries_and_flags_witness :
  let pan := {| e_name := "Pantoprazole"; e_dose := "40mg"; e_color := "#00ffb4";
                e_source := "Dr. Sunita Sharma"; e_flag := Some "⚠️" |} in
  pan ∈ bucket "Morning" ∧
  (conflict pan = true ↔ e_name pan ∈ drug2 <$> CROSS_INTERACTIONS) ∧
  (conflict pan = true → Spec.participates (e_name pan) = true).
Proof.
  assert (Hin : {| e_name := "Pantoprazole"; e_dose := "40mg"; e_color := "#00ffb4";
                   e_source := "Dr. Sunita Sharma"; e_flag := Some "⚠️" |}
                ∈ bucket "Morning")
    by (apply (list_elem_of_lookup_2 _ 3); reflexivity).
  split; [exact Hin|].
  exact (proj1 (proj2 merged_schedule_entries_and_flags) "Morning" _ Hin).
Defined.

End MultiRxFacts.

(** * Facts about the string primitives *)
Section JsFacts.

Lemma string_app_cons a (s t : string) : String a s +:+ t = String a (s +:+ t).
Proof. reflexivity. Qed.

Lemma string_app_assoc (a b c : string) : (a +:+ b) +:+ c = a +:+ b +:+ c.
Proof. induction a as [|x a IH]; [done|]. by rewrite !string_app_cons, IH. Qed.

Lemma string_app_length (a b : string) :
  String.length (a +:+ b) = String.length a + String.length b.
Proof. induction a as [|x a IH]; [done|]. rewrite string_app_cons; simpl. by rewrite IH. Qed.

Lemma startsWith_spec s p : Js.startsWith s p = true ↔ ∃ post, s = p +:+ post.
Proof.
  revert s. induction p as [|a p IH]; intros s; simpl.
  { split; [by exists s|done]. }
  destruct s as [|b s].
  { split; [done|]. by intros [post [=]]. }
  rewrite andb_true_iff, bool_decide_eq_true, IH. split.
  - intros [-> [post ->]]. by exists post.
  - intros [post [= -> ->]]. split; [done|by exists post].
Qed.

Lemma str_includes_spec s sub :
  Js.str_includes s sub = true ↔ ∃ pre post, s = pre +:+ sub +:+ post.
Proof.
  induction s as [|a s IH]; simpl; rewrite orb_true_iff, startsWith_spec.
  - split.
    + intros [[post ->]|?]; [|done]. by exists "", post.
    + intros ([|??] & post & Heq); [|done]. left. by exists post.
  - rewrite IH. split.
    + intros [[post ->]|(pre & post & ->)]; [by exists "", post|].
      by exists (String a pre), post.
    + intros ([|b pre] & post & Heq).
      * left. by exists post.
      * right. rewrite string_app_cons in Heq. injection Heq as -> ->.
        by exists pre, post.
Qed.

(** Every string includes the empty string. *)
Lemma str_includes_empty s : Js.str_includes s "" = true.
Proof. apply str_includes_spec. by exists "", s. Qed.

(** A part of a part is a part. *)
Lemma str_includes_trans s m sub :
  Js.str_includes s m = true → Js.str_includes m sub = true →
  Js.str_includes s sub = true.
Proof.
  rewrite !str_includes_spec. intros (p1 & q1 & ->) (p2 & q2 & ->).
  exists (p1 +:+ p2), (q2 +:+ q1). by rewrite !string_app_assoc.
Qed.

Lemma filter_all {A} (P : A → Prop) `{∀ x, Decision (P x)} (l : list A) :
  (∀ x, x ∈ l → P x) → filter P l = l.
Proof.
  induction l as [|x l IH]; intros Hall; [done|].
  rewrite filter_cons_True by (apply Hall; left).
  f_equal. apply IH. intros y Hy. apply Hall. by right.
Qed.

Lemma existsb_impl {A} (f g : A → bool) (l : list A) :
  (∀ x, f x = true → g x = true) → existsb f l = true → existsb g l = true.
Proof.
  intros Hfg. rewrite !existsb_exists. intros (x & Hx & Hf). exists x. auto.
Qed.

End JsFacts.

(** * Further facts about the drug checker: suggestions and typing *)
Section DrugSuggestFacts.
Import DrugChecker DrugSuggest.

Lemma NoDup_DRUG_DATABASE : NoDup DRUG_DATABASE.
Proof. by_compute. Qed.

Lemma elem_of_suggestions lower s d :
  d ∈ suggestions lower s ↔
  d ∈ DRUG_DATABASE ∧ Js.str_includes (lower d) (lower (input s)) = true ∧
  (d ∉ drugs s) ∧ input s ≠ "".
Proof.
  unfold suggestions. rewrite list_elem_of_filter, !andb_true_iff, negb_true_iff.
  unfold includes. rewrite bool_decide_eq_false, bool_decide_eq_true.
  assert (0 < String.length (input s) ↔ input s ≠ "") as ->
    by (destruct (input s); simpl; split; (done || lia)).
  tauto.
Qed.

(** X1. The suggestion list only ever offers names of the drug database
    that are not yet in the drug list and that contain the text typed (up
    to case); it offers every name at most once, and nothing at all while
    the text field is empty. *)
Theorem suggestions_sound lower s :
  NoDup (suggestions lower s) ∧
  (input s = "" → suggestions lower s = []) ∧
  ∀ d, d ∈ suggestions lower s →
       d ∈ DRUG_DATABASE ∧ (d ∉ drugs s) ∧ input s ≠ "" ∧
       Js.str_includes (lower d) (lower (input s)) = true.
Proof.
  split_and!.
  - apply NoDup_filter, NoDup_DRUG_DATABASE.
  - intros Hin. destruct (suggestions lower s) as [|d l] eqn:E; [done|].
    assert (Hd : d ∈ suggestions lower s) by (rewrite E; left).
    apply elem_of_suggestions in Hd. tauto.
  - intros d Hd%elem_of_suggestions. tauto.
Qed.

Lemma suggestions_sound_witness :
  let s := run [ClickRemove "Metformin"; Change "MET"] init in
  suggestions Spec.lowercase s = ["Metformin"] ∧
  "Metformin" ∈ DRUG_DATABASE ∧ ("Metformin" ∉ drugs s) ∧ input s ≠ "" ∧
  Js.str_includes (Spec.lowercase "Metformin") (Spec.lowercase (input s)) = true.
Proof.
  split; [by vm_compute|].
  apply (proj2 (proj2 (suggestions_sound Spec.lowercase
           (run [ClickRemove "Metformin"; Change "MET"] init)))).
  by_compute.
Defined.

(** X2. A click on any row of the suggestion dropdown adds exactly that
    name at the end of the drug list, empties the text field, closes the
    dropdown and takes the results off the screen. *)
Theorem suggestion_click_appends lower s d :
  d ∈ dropdown lower s →
  let s' := handle (ClickSuggestion d) s in
  drugs s' = drugs s ++ [d] ∧
  length (drugs s') = S (length (drugs s)) ∧
  input s' = "" ∧ dropdown lower s' = [] ∧ results (render s') = None.
Proof.
  unfold dropdown at 1. intros Hd.
  assert (Hs : d ∈ suggestions lower s).
  { destruct (_ && _); [done|by apply elem_of_nil in Hd]. }
  apply elem_of_suggestions in Hs as (_ & _ & Hnin & _).
  cbv zeta. change (handle (ClickSuggestion d) s) with (addDrug d s).
  rewrite addDrug_absent by done.
  split_and!; try done. rewrite length_app; simpl; lia.
Qed.

Lemma suggestion_click_appends_witness :
  let s := run [Change "war"] init in
  "Warfarin" ∈ dropdown Spec.lowercase s ∧
  drugs (handle (ClickSuggestion "Warfarin") s) = drugs s ++ ["Warfarin"] ∧
  length (drugs (handle (ClickSuggestion "Warfarin") s)) = S (length (drugs s)) ∧
  input (handle (ClickSuggestion "Warfarin") s) = "" ∧
  dropdown Spec.lowercase (handle (ClickSuggestion "Warfarin") s) = [] ∧
  results (render (handle (ClickSuggestion "Warfarin") s)) = None.
Proof.
  assert (Hin : "Warfarin" ∈ dropdown Spec.lowercase (run [Change "war"] init))
    by by_compute.
  split; [exact Hin|].
  exact (suggestion_click_appends Spec.lowercase _ "Warfarin" Hin).
Defined.

(** X3. Typing a non-empty text and pressing Enter puts exactly that text
    in the drug list, untrimmed and in its own letter case: the list is
    unchanged if it already held the text and one longer otherwise; the
    text field is empty afterwards and no results are shown.  Enter in an
    empty field, and any other key, change nothing. *)
Theorem enter_adds_typed_text s v :
  (v ≠ "" →
     let s' := run [Change v; KeyDown "Enter"] s in
     v ∈ drugs s' ∧
     drugs s' = (if bool_decide (v ∈ drugs s) then drugs s else drugs s ++ [v]) ∧
     input s' = "" ∧ results (render s') = None) ∧
  (input s = "" → handle (KeyDown "Enter") s = s) ∧
  (∀ key, key ≠ "Enter" → handle (KeyDown key) s = s).
Proof.
  split_and!.
  - intros Hv. simpl. unfold onKeyDown; simpl.
    rewrite (bool_decide_eq_false_2 (v = "")) by done. simpl.
    unfold includes. case_bool_decide as Hin; split_and!; try done.
    apply elem_of_app. right. by left.
  - intros Hi. simpl. unfold onKeyDown. rewrite Hi. by rewrite andb_false_r.
  - intros key Hk. simpl. unfold onKeyDown. by rewrite bool_decide_eq_false_2.
Qed.

Lemma enter_adds_typed_text_witness :
  let s' := run [Change " "; KeyDown "Enter"] init in
  " " ∈ drugs s' ∧
  drugs s' = (if bool_decide (" " ∈ drugs init) then drugs init else drugs init ++ [" "]) ∧
  input s' = "" ∧ results (render s') = None.
Proof.
  apply (proj1 (enter_adds_typed_text init " ")). by vm_compute.
Defined.

Lemma filter_ne_absent (name : string) (l : list string) :
  name ∉ l → filter (λ d, d ≠ name) l = l.
Proof. intros Hnin. apply filter_all. by intros x Hx ->. Qed.

(** X4. Removing a drug takes every occurrence of the name off the list
    and leaves the other names in place.  Adding a name that was not in the
    list and removing it again gives the list back; removing a listed name
    and adding it again gives the same names, the re-added one last. *)
Theorem add_remove_round_trip s name :
  (name ∉ drugs (removeDrug name s)) ∧
  (∀ d, d ≠ name → (d ∈ drugs (removeDrug name s) ↔ d ∈ drugs s)) ∧
  (name ∉ drugs s → drugs (removeDrug name (addDrug name s)) = drugs s) ∧
  (name ∈ drugs s → NoDup (drugs s) →
     drugs (addDrug name (removeDrug name s))
       = filter (λ d, d ≠ name) (drugs s) ++ [name] ∧
     drugs (addDrug name (removeDrug name s)) ≡ₚ drugs s).
Proof.
  assert (Hgone : name ∉ filter (λ d, d ≠ name) (drugs s)).
  { rewrite list_elem_of_filter. tauto. }
  split_and!.
  - done.
  - intros d Hd. simpl. rewrite list_elem_of_filter. tauto.
  - intros Hnin.
    change (drugs (removeDrug name (addDrug name s)))
      with (filter (λ d, d ≠ name) (drugs (addDrug name s))).
    rewrite addDrug_absent by done.
    rewrite filter_app, filter_ne_absent by done.
    rewrite filter_cons_False, filter_nil by (by intros ?). apply app_nil_r.
  - intros Hin Hnd. rewrite addDrug_absent by done.
    change (drugs (removeDrug name s)) with (filter (λ d, d ≠ name) (drugs s)).
    split; [done|].
    apply NoDup_Permutation; [|done|].
    + apply NoDup_app. split_and!; [by apply NoDup_filter| |apply NoDup_singleton].
      by intros x Hx ->%list_elem_of_singleton.
    + intros x. rewrite elem_of_app, list_elem_of_filter, list_elem_of_singleton.
      destruct (decide (x = name)) as [->|]; tauto.
Qed.

Lemma add_remove_round_trip_witness :
  drugs (removeDrug "Aspirin" (addDrug "Aspirin" init)) = drugs init ∧
  drugs (addDrug "Amlodipine" (removeDrug "Amlodipine" init))
    = ["Metformin"; "Pantoprazole"; "Atorvastatin"; "Amlodipine"] ∧
  drugs (addDrug "Amlodipine" (removeDrug "Amlodipine" init)) ≡ₚ drugs init.
Proof.
  destruct (add_remove_round_trip init "Aspirin") as (_ & _ & Hadd & _).
  destruct (add_remove_round_trip init "Amlodipine") as (_ & _ & _ & Hrem).
  split; [apply Hadd; by_compute|].
  destruct (Hrem ltac:(by_compute) ltac:(by_compute)) as [Heq Hperm].
  split; [rewrite Heq; reflexivity | exact Hperm].
Defined.

End DrugSuggestFacts.

(** * Further facts about the vault page: search, selection, banner *)
Section VaultPageFacts.
Import VaultPage.

Lemma elem_of_toggleCompare x item ids :
  x ∈ Vault.toggleCompare item ids → x ∈ ids ∨ x = item.
Proof.
  unfold Vault.toggleCompare. destruct (includes ids item).
  - rewrite list_elem_of_filter. tauto.
  - case_bool_decide; [|tauto].
    rewrite elem_of_app, list_elem_of_singleton. tauto.
Qed.

(** X5. Pressing the compare button of the same prescription twice leaves
    the same prescriptions selected: the selection is restored up to the
    order of its ids, and exactly when the prescription was not selected
    before. *)
Theorem toggle_twice_same_selection ids item :
  Vault.reachable ids →
  Vault.toggleCompare item (Vault.toggleCompare item ids) ≡ₚ ids ∧
  (item ∉ ids → Vault.toggleCompare item (Vault.toggleCompare item ids) = ids).
Proof.
  intros [Hlen Hnd]%reachable_ok.
  destruct (decide (item ∈ ids)) as [Hin|Hnin].
  - split; [|done]. rewrite (toggleCompare_selected item ids Hin).
    assert (Hgone : item ∉ filter (λ c, c ≠ item) ids)
      by (rewrite list_elem_of_filter; tauto).
    assert (Hlt : length (filter (λ c, c ≠ item) ids) < 2).
    { pose proof (length_filter_lt (λ c, c ≠ item) ids item Hin). lia. }
    rewrite toggleCompare_room by done.
    apply NoDup_Permutation; [|done|].
    + apply NoDup_app. split_and!; [by apply NoDup_filter| |apply NoDup_singleton].
      by intros x Hx ->%list_elem_of_singleton.
    + intros x. rewrite elem_of_app, list_elem_of_filter, list_elem_of_singleton.
      destruct (decide (x = item)) as [->|]; tauto.
  - destruct (decide (length ids < 2)) as [Hlt|Hge].
    + rewrite (toggleCompare_room item ids Hnin Hlt).
      rewrite toggleCompare_selected by (apply elem_of_app; right; by left).
      rewrite filter_app, filter_cons_False, filter_nil, app_nil_r by (by intros ?).
      rewrite filter_all; [done|]. by intros x Hx ->.
    + rewrite !(toggleCompare_full item ids Hnin) by lia. done.
Qed.

Lemma toggle_twice_same_selection_witness :
  let ids := Vault.handle (Vault.Toggle 2) (Vault.handle (Vault.Toggle 1) Vault.init) in
  Vault.toggleCompare 1 (Vault.toggleCompare 1 ids) = (2 :: 1 :: nil)%Z ∧
  Vault.toggleCompare 1 (Vault.toggleCompare 1 ids) ≡ₚ ids ∧
  Vault.toggleCompare 3 (Vault.toggleCompare 3 ids) = ids.
Proof.
  assert (Hr : Vault.reachable
                 (Vault.handle (Vault.Toggle 2) (Vault.handle (Vault.Toggle 1) Vault.init)))
    by (do 2 apply Vault.reach_step; apply Vault.reach_init).
  split; [reflexivity|].
  split; [exact (proj1 (toggle_twice_same_selection _ 1%Z Hr))|].
  apply (proj2 (toggle_twice_same_selection _ 3%Z Hr)). by_compute.
Defined.

Lemma item_matches_empty lower q v : lower q = "" → item_matches lower q v = true.
Proof. intros Hq. unfold item_matches. by rewrite Hq, str_includes_empty. Qed.

Lemma item_matches_narrow lower q1 q2 v :
  Js.str_includes (lower q2) (lower q1) = true →
  item_matches lower q2 v = true → item_matches lower q1 v = true.
Proof.
  intros Hq. unfold item_matches. rewrite !orb_true_iff.
  intros [[H|H]|H]; [left; left|left; right|right].
  - by eapply str_includes_trans.
  - revert H. apply existsb_impl. intros m Hm. by eapply str_includes_trans.
  - revert H. apply existsb_impl. intros m Hm. by eapply str_includes_trans.
Qed.

(** X6. The history tab lists vault prescriptions in the order of the
    vault, each at most once, whatever is typed in the search bar; a query
    that lower-cases to the empty string, the empty query for one, lists
    them all. *)
Theorem empty_search_shows_all lower q :
  filtered lower q `sublist_of` VAULT_DATA ∧
  (lower q = "" → filtered lower q = VAULT_DATA).
Proof.
  split; [apply sublist_filter|].
  intros Hq. apply filter_all. intros v _. by apply item_matches_empty.
Qed.

Lemma empty_search_shows_all_witness :
  Spec.lowercase "" = "" ∧ filtered Spec.lowercase "" = VAULT_DATA.
Proof.
  split; [reflexivity|].
  apply (proj2 (empty_search_shows_all Spec.lowercase "")). reflexivity.
Defined.

(** X7. A query that contains another one, case folded, can only narrow
    the list: every prescription it finds is found by the shorter query
    too, in the same order, and its result is its own filter applied to the
    shorter query's result. *)
Theorem longer_query_narrows lower q1 q2 :
  Js.str_includes (lower q2) (lower q1) = true →
  filtered lower q2 `sublist_of` filtered lower q1 ∧
  filtered lower q2 = filter (λ v, item_matches lower q2 v = true) (filtered lower q1).
Proof.
  intros Hq.
  assert (Heq : filtered lower q2
                = filter (λ v, item_matches lower q2 v = true) (filtered lower q1)).
  { unfold filtered. rewrite list_filter_filter_l; [done|].
    intros v. by apply item_matches_narrow. }
  split; [|done]. rewrite Heq. apply sublist_filter.
Qed.

Lemma longer_query_narrows_witness :
  Js.str_includes (Spec.lowercase "Ram") (Spec.lowercase "RA") = true ∧
  id <$> filtered Spec.lowercase "RA" = (1 :: 3 :: 4 :: nil)%Z ∧
  id <$> filtered Spec.lowercase "Ram" = (1 :: nil)%Z ∧
  filtered Spec.lowercase "Ram" `sublist_of` filtered Spec.lowercase "RA".
Proof.
  split; [reflexivity|]. split; [reflexivity|]. split; [reflexivity|].
  apply (longer_query_narrows Spec.lowercase "RA" "Ram"). reflexivity.
Defined.

Lemma NoDup_vault_ids : NoDup (id <$> VAULT_DATA).
Proof. by_compute. Qed.

(** Over records with distinct keys, a duplicate-free list of keys selects
    as many records as it has keys. *)
Lemma length_filter_keys {A} (f : A → Z) (data : list A) (l : list Z) :
  NoDup (f <$> data) → NoDup l → (∀ x, x ∈ l → x ∈ f <$> data) →
  length (filter (λ v, f v ∈ l) data) = length l.
Proof.
  intros Hdata Hl Hsub.
  rewrite <-(length_fmap f). apply Permutation_length, NoDup_Permutation; [|done|].
  - eapply sublist_NoDup; [exact Hdata|]. apply fmap_sublist, sublist_filter.
  - intros x. rewrite list_elem_of_fmap. split.
    + intros (v & -> & Hv). apply list_elem_of_filter in Hv. tauto.
    + intros Hx. pose proof (Hsub x Hx) as Hv.
      apply list_elem_of_fmap in Hv as (v & -> & Hv).
      exists v. split; [done|]. by apply list_elem_of_filter.
Qed.

(** The invariant of the page. *)
Lemma vault_page_invariant lower st :
  reachable lower st →
  tab st ∈ tabs ∧ Vault.selection_ok (compareIds st) ∧
  ∀ x, x ∈ compareIds st → x ∈ id <$> VAULT_DATA.
Proof.
  induction 1 as [|e s s' _ (Ht & Hok & Hids) Hstep].
  { split_and!; [by_compute|split; [simpl; lia|constructor]|by intros x ?%elem_of_nil]. }
  destruct e as [t|q|item|]; simpl in Hstep.
  - case_bool_decide; [|done]. injection Hstep as <-. done.
  - case_bool_decide; [|done]. injection Hstep as <-. done.
  - destruct (bool_decide _ && includes _ _) eqn:Hg; [|done].
    injection Hstep as <-. simpl.
    apply andb_true_iff in Hg as [_ Hitem]. apply includes_spec in Hitem.
    split_and!; [done|by apply toggleCompare_ok|].
    intros x [Hx| ->]%elem_of_toggleCompare; [by apply Hids|].
    apply list_elem_of_fmap in Hitem as (v & -> & Hv).
    apply list_elem_of_filter in Hv as [_ Hv].
    exact (list_elem_of_fmap_2 id VAULT_DATA v Hv).
  - destruct (_ && _); [|done]. injection Hstep as <-. simpl.
    split_and!; [done|split; [simpl; lia|constructor]|by intros x ?%elem_of_nil].
Qed.

(** X8. In every state the vault page reaches, the selected ids are ids of
    distinct vault prescriptions and there are at most two: exactly as many
    prescriptions are selected as [compareIds] is long.  The cards shown as
    selected are never more than that, since the search can hide a selected
    card without deselecting it.  On the history tab the banner is absent
    exactly when nothing is selected, and announces two prescriptions
    exactly when two are. *)
Theorem vault_selection_consistent lower st :
  reachable lower st →
  tab st ∈ tabs ∧ NoDup (compareIds st) ∧ length (compareIds st) ≤ 2 ∧
  length (filter (λ v, id v ∈ compareIds st) VAULT_DATA) = length (compareIds st) ∧
  length (selected_cards lower st) ≤ length (compareIds st) ∧
  (tab st = "history" →
     (compare_banner st = None ↔ compareIds st = []) ∧
     (compare_banner st = Some TwoSelected ↔ length (compareIds st) = 2)).
Proof.
  intros (Ht & [Hlen Hnd] & Hids)%vault_page_invariant.
  pose proof (length_filter_keys id VAULT_DATA (compareIds st)
                NoDup_vault_ids Hnd Hids) as Hcount.
  split_and!; try done.
  - rewrite <-Hcount. unfold selected_cards. case_bool_decide; [|simpl; lia].
    unfold filtered. rewrite list_filter_filter.
    rewrite <-(list_filter_filter_l _ (λ v, id v ∈ compareIds st)).
    + apply sublist_length, sublist_filter.
    + intros v [Hv _]. by apply includes_spec in Hv.
  - intros Hh. unfold compare_banner. rewrite bool_decide_eq_true_2 by done.
    destruct (compareIds st) as [|a [|b [|c l]]]; simpl in *; try lia;
      repeat case_bool_decide; try lia; done.
Qed.

Lemma vault_selection_consistent_witness :
  let st := {| search := "zzz"; compareIds := (1 :: 2 :: nil)%Z; tab := "history" |} in
  reachable Spec.lowercase st ∧
  selected_cards Spec.lowercase st = [] ∧
  compare_banner st = Some TwoSelected ∧
  length (filter (λ v, id v ∈ compareIds st) VAULT_DATA) = 2.
Proof.
  assert (Hr : reachable Spec.lowercase
                 {| search := "zzz"; compareIds := (1 :: 2 :: nil)%Z; tab := "history" |}).
  { apply (reach_step _ (ChangeSearch "zzz")
             {| search := ""; compareIds := (1 :: 2 :: nil)%Z; tab := "history" |});
      [|reflexivity].
    apply (reach_step _ (ClickCompare 2)
             {| search := ""; compareIds := (1 :: nil)%Z; tab := "history" |});
      [|reflexivity].
    apply (reach_step _ (ClickCompare 1) init); [apply reach_init|reflexivity]. }
  destruct (vault_selection_consistent Spec.lowercase _ Hr)
    as (_ & _ & _ & Hcount & _ & Hbanner).
  split; [exact Hr|]. split; [reflexivity|].
  split; [apply (proj2 (Hbanner eq_refl)); reflexivity | exact Hcount].
Defined.

End VaultPageFacts.

(** * Facts about the application shell and its links *)
Section AppFacts.
Import App.

Lemma getPage_in_pages path : Router.getPage path ∈ Router.pages.
Proof. unfold Router.getPage, Router.pages. repeat case_bool_decide; by_compute. Qed.

Lemma mounted_of_page p pushes :
  p ∈ Router.pages →
  ∃ c, mounted {| page := p; pushed := pushes |} = [c] ∧ (p, c) ∈ routes.
Proof.
  unfold Router.pages. rewrite !elem_of_cons, elem_of_nil.
  intros [->|[->|[->|[->|[->|[->|[]]]]]]];
    eexists; (split; [reflexivity|by_compute]).
Qed.

Lemma page_in_pages pathname evs : page (run evs (init pathname)) ∈ Router.pages.
Proof.
  induction evs as [|e evs IH] using rev_ind; [apply getPage_in_pages|].
  unfold run. rewrite foldl_snoc. fold (run evs (init pathname)).
  destruct e as [[href|]|p]; simpl; [|done|apply getPage_in_pages].
  destruct (_ || _); [done|apply getPage_in_pages].
Qed.

(** X9. Whatever the address the application is opened at and whatever
    links are clicked or history entries revisited afterwards, exactly one
    page component is mounted: the one the routing table gives for the
    current page identifier. *)
Theorem exactly_one_page_mounted pathname evs :
  ∃ c, mounted (run evs (init pathname)) = [c] ∧
       (page (run evs (init pathname)), c) ∈ routes.
Proof.
  pose proof (page_in_pages pathname evs) as Hp.
  destruct (run evs (init pathname)) as [p pushes]. by apply mounted_of_page.
Qed.

(** X10. From any page, the i-th link of the navigation bar shows the i-th
    page of the routing table and no other, so that the six links reach the
    six pages; each click records the link's href in the history. *)
Theorem navbar_links_reach_every_page s :
  (λ l, mounted (handleClick (Some l.2) s)) <$> navLinks = (λ r, [r.2]) <$> routes ∧
  (λ l, page (handleClick (Some l.2) s)) <$> navLinks = routes.*1 ∧
  Forall (λ l, pushed (handleClick (Some l.2) s) = l.2 :: pushed s) navLinks.
Proof. split_and!; [reflexivity..|]. by repeat constructor. Qed.

(** X11. Of the six feature cards of the home page, five lead to the page
    they advertise; the card "Dosage Anomaly Detection" links to /dosage,
    which the router does not know, and shows the home page again. *)
Theorem feature_cards_targets s :
  (λ l, page (handleClick (Some l.2) s)) <$> featureCards
    = ["scan"; "drug-checker"; "home"; "schedule"; "vault"; "multi-prescription"] ∧
  mounted (handleClick (Some "/dosage") s) = [HomePage] ∧
  ("Dosage Anomaly Detection", "/dosage") ∈ featureCards ∧
  "/dosage" ∉ Router.routed_paths.
Proof. split_and!; [reflexivity..|by_compute|by_compute]. Qed.

(** X12. Navigation never leaves the application: a click outside a link,
    on a link with an empty href, on an external link (http...) or on a hash
    link changes neither the page nor the history, and in every session the
    hrefs recorded in the history are non-empty and neither external nor
    hash links. *)
Theorem history_holds_internal_links pathname evs s post :
  Forall (λ h, h ≠ "" ∧ Js.startsWith h "http" = false ∧ Js.startsWith h "#" = false)
         (pushed (run evs (init pathname))) ∧
  handleClick None s = s ∧ handleClick (Some "") s = s ∧
  handleClick (Some ("http" +:+ post)) s = s ∧
  handleClick (Some ("#" +:+ post)) s = s.
Proof.
  split; [|done].
  induction evs as [|e evs IH] using rev_ind; [constructor|].
  unfold run. rewrite foldl_snoc. fold (run evs (init pathname)).
  destruct e as [[href|]|p]; cbn [handle handleClick handlePop pushed]; try done.
  destruct (bool_decide (href = "")) eqn:E1; [done|].
  destruct (Js.startsWith href "http") eqn:E2; [done|].
  destruct (Js.startsWith href "#") eqn:E3; [done|]. cbn [orb pushed].
  constructor; [|done]. by apply bool_decide_eq_false in E1.
Qed.

(** X13. Paths and page identifiers convert into each other: the page of
    "/" followed by a page identifier is that identifier, a routed path is
    "/" followed by its page, and two different routed paths never show the
    same page. *)
Theorem getPage_path_round_trip p1 p2 :
  (p1 ∈ Router.pages → Router.getPage ("/" +:+ p1) = p1) ∧
  (p1 ∈ Router.routed_paths → "/" +:+ Router.getPage p1 = p1) ∧
  (p1 ∈ Router.routed_paths → p2 ∈ Router.routed_paths →
     Router.getPage p1 = Router.getPage p2 → p1 = p2).
Proof.
  split_and!.
  - unfold Router.pages. rewrite !elem_of_cons, elem_of_nil.
    intros [->|[->|[->|[->|[->|[->|[]]]]]]]; reflexivity.
  - apply getPage_routed.
  - intros H1%getPage_routed H2%getPage_routed Heq. congruence.
Qed.

Lemma getPage_path_round_trip_witness :
  Router.getPage ("/" +:+ "vault") = "vault" ∧
  "/" +:+ Router.getPage "/vault" = "/vault".
Proof.
  destruct (getPage_path_round_trip "vault" "vault") as (H1 & _ & _).
  destruct (getPage_path_round_trip "/vault" "/vault") as (_ & H2 & _).
  split; [apply H1; by_compute | apply H2; by_compute].
Defined.

End AppFacts.

(** * Facts about the scan page *)
Section ScanPageFacts.
Import ScanPage.




(** X15. The confidence badge never contradicts itself: its colour is the
    green one exactly when its label is "High", the amber one exactly for
    "Medium" and the red one exactly for "Low"; the label is "High" from 90
    upwards and "Low" below 75, and a higher score never gets a lower
    grade. *)
Theorem confidence_badge_consistent (a b : Z) :
  (badge_color a = "#00ffb4" ↔ badge_label a = "High") ∧
  (badge_color a = "#f59e0b" ↔ badge_label a = "Medium") ∧
  (badge_color a = "#ef4444" ↔ badge_label a = "Low") ∧
  (badge_label a = "High" ↔ (90 ≤ a)%Z) ∧
  (badge_label a = "Low" ↔ (a < 75)%Z) ∧
  ((a ≤ b)%Z →
     (badge_label a = "High" → badge_label b = "High") ∧
     (badge_label b = "Low" → badge_label a = "Low")).
Proof.
  unfold badge_color, badge_label.
  repeat case_bool_decide; split_and!; try (split; intros; (done || lia));
    intros; split; intros; (done || lia).
Qed.

Lemma confidence_badge_consistent_witness :
  (badge_label 92 = "High" → badge_label 95 = "High") ∧
  (badge_label 70 = "Low" → badge_label 60 = "Low").
Proof.
  split.
  - apply (proj2 (proj2 (proj2 (proj2 (proj2 (confidence_badge_consistent 92 95)))))).
    lia.
  - apply (proj2 (proj2 (proj2 (proj2 (proj2 (confidence_badge_consistent 60 70)))))).
    lia.
Defined.

End ScanPageFacts.

(** * Facts about the schedule page *)
Section SchedulePageFacts.
Import SchedulePage.

Lemma activeDay_in_days s : reachable s → activeDay s ∈ days_tabs.
Proof. induction 1; [by_compute|done]. Qed.

(** X16. On the schedule page exactly one day tab is highlighted at any
    time, the one last clicked ("Today" at first), and the grid does not
    depend on it: every day shows the same four columns.  In each column
    the count of the header is the number of pills below it, and the "No
    medicines" placeholder stands in exactly the columns without pills. *)
Theorem one_day_tab_active s :
  reachable s →
  filter (λ t, t.2 = true) (day_tabs_view s) = [(activeDay s, true)] ∧
  grid s = grid init ∧
  Forall (λ c, col_count c = length (col_pills c) ∧
               (col_empty c = true ↔ col_pills c = []))
         (grid s).
Proof.
  intros Hd%activeDay_in_days. destruct s as [d v]; simpl in Hd.
  split_and!; [|done|].
  - revert Hd. unfold days_tabs. rewrite !elem_of_cons, elem_of_nil.
    intros [->|[->|[->|[->|[->|[->|[->|[]]]]]]]]; reflexivity.
  - unfold grid, SCHEDULE_DATA. repeat constructor; by intros [=].
Qed.

Lemma one_day_tab_active_witness :
  let s := setActiveDay "Day 3" init in
  filter (λ t, t.2 = true) (day_tabs_view s) = [("Day 3", true)] ∧
  grid s = grid init.
Proof.
  assert (Hr : reachable (setActiveDay "Day 3" init))
    by (apply reach_click; [apply reach_init|by_compute]).
  destruct (one_day_tab_active _ Hr) as (H1 & H2 & _). split; [exact H1|exact H2].
Defined.

End SchedulePageFacts.

(** * Facts about the counters of the home page *)
Section StatCardFacts.
Import StatCard.

Lemma string_app_nil_r (s : string) : s +:+ "" = s.
Proof. induction s as [|c s IH]; [done|]. by rewrite string_app_cons, IH. Qed.

Lemma remove_chars_app f (a b : string) :
  Js.remove_chars f (a +:+ b) = Js.remove_chars f a +:+ Js.remove_chars f b.
Proof.
  induction a as [|c a IH]; [done|]. rewrite string_app_cons; simpl.
  destruct (f c); [done|]. by rewrite string_app_cons, IH.
Qed.

(** A string from which the class removes nothing but leaves nothing of
    either is kept whole by the complementary class. *)
Lemma remove_chars_complement f (s : string) :
  Js.remove_chars f s = "" → Js.remove_chars (λ c, negb (f c)) s = s.
Proof.
  induction s as [|c s IH]; [done|]. simpl.
  destruct (f c); simpl; [|done]. intros Hs. by rewrite IH.
Qed.

Lemma remove_chars_idemp f (s : string) :
  Js.remove_chars f (Js.remove_chars (λ c, negb (f c)) s) = "".
Proof.
  induction s as [|c s IH]; [done|]. simpl.
  destruct (f c) eqn:E; simpl; [by rewrite E|done].
Qed.

Lemma remove_chars_idemp' f (s : string) :
  Js.remove_chars (λ c, negb (f c)) (Js.remove_chars f s) = "".
Proof.
  induction s as [|c s IH]; [done|]. simpl.
  destruct (f c) eqn:E; simpl; [done|by rewrite E].
Qed.

Lemma remove_chars_complement' f (s : string) :
  Js.remove_chars (λ c, negb (f c)) s = "" → Js.remove_chars f s = s.
Proof.
  induction s as [|c s IH]; [done|]. simpl.
  destruct (f c); simpl; [done|]. intros Hs. by rewrite IH.
Qed.

(** X17. A counter splits its value into a digit string and a suffix that
    share the characters of the value between them: the digit string holds
    only digits, the suffix none, and their lengths add up to the length
    of the value.  For a value written as digits followed by a digit-free
    suffix, as "800M+", the two parts are recovered exactly. *)
Theorem stat_value_split value ds suf :
  suffix (digits_of value) = "" ∧
  digits_of (suffix value) = "" ∧
  String.length (digits_of value) + String.length (suffix value)
    = String.length value ∧
  (suffix ds = "" → digits_of suf = "" →
     digits_of (ds +:+ suf) = ds ∧ suffix (ds +:+ suf) = suf).
Proof.
  unfold suffix, digits_of. split_and!.
  - apply remove_chars_idemp.
  - apply remove_chars_idemp'.
  - induction value as [|c v IH]; [done|]. simpl.
    destruct (Js.is_digit c); simpl; lia.
  - intros Hds Hsuf. rewrite !remove_chars_app, Hds, Hsuf.
    rewrite (remove_chars_complement _ _ Hds). split; [apply string_app_nil_r|].
    by rewrite (remove_chars_complement' _ _ Hsuf).
Qed.

Lemma stat_value_split_witness :
  digits_of "800M+" = "800" ∧ suffix "800M+" = "M+".
Proof.
  apply (proj2 (proj2 (proj2 (stat_value_split "" "800" "M+")))); reflexivity.
Defined.

End StatCardFacts.
